(** * Presence registry of p2p-share: the FastAPI handlers of
    [server/main.py] over the [users] table of [server/models.py].

    The table is a list of rows in insertion order.  A handler runs in a
    SQLAlchemy session: it reads and mutates the session's working copy of
    the rows, [db.commit()] publishes the working copy, and closing the
    session (the [finally] of [get_db]) drops whatever was not committed.
    Handlers either return a response, raise an [HTTPException], or let an
    exception of the password context through. *)

From stdpp Require Import base list strings pretty.
From Stdlib Require Import ZArith Lia.

Open Scope string_scope.
Open Scope Z_scope.
Open Scope list_scope.

(** ** Time *)

(** A [datetime] is a count of microseconds, the resolution of Python's
    [datetime]; [datetime.utcnow()] is the [now] argument of a handler. *)
Abbreviation datetime := Z (only parsing).

Definition timedelta (seconds : Z) : Z := seconds * 1000000.

(** The window [timedelta(seconds=60)] used by [prune_users] and
    [get_users]. *)
Definition ttl : Z := timedelta 60.

(** ** server/models.py *)

(** A row of the [users] table.  The primary key column [id] is called
    [user_id] here. *)
Record User := mkUser {
  user_id : Z;
  username : string;
  hashed_password : string;
  is_online : bool;
  last_ping : datetime;
  is_busy : bool
}.

Global Instance User_eq_dec : EqDecision User.
Proof. solve_decision. Defined.

Definition set_is_online (b : bool) (u : User) : User :=
  mkUser (user_id u) (username u) (hashed_password u) b (last_ping u) (is_busy u).

Definition set_last_ping (t : datetime) (u : User) : User :=
  mkUser (user_id u) (username u) (hashed_password u) (is_online u) t (is_busy u).

Definition set_is_busy (b : bool) (u : User) : User :=
  mkUser (user_id u) (username u) (hashed_password u) (is_online u) (last_ping u) b.

(** [models.User(username=..., hashed_password=...)] once flushed: the key
    comes from the storage engine, the other columns from their defaults
    ([is_online] False, [last_ping] [datetime.utcnow], [is_busy] False). *)
Definition new_User (key : Z) (now : datetime) (name hashed : string) : User :=
  mkUser key name hashed false now false.

(** ** Requests, responses, errors *)

Record UserCreate := mkUserCreate { uc_username : string; uc_password : string }.
Record UserLogin := mkUserLogin { ul_username : string; ul_password : string }.

Record UserResponse := mkUserResponse {
  ur_username : string;
  ur_is_online : bool;
  ur_is_busy : bool
}.

Definition to_UserResponse (u : User) : UserResponse :=
  mkUserResponse (username u) (is_online u) (is_busy u).

Record HTTPException := mkHTTPException { status_code : Z; detail : string }.

(** What comes out of a handler that does not return: an [HTTPException]
    of its own, which FastAPI answers with its status code and detail, or
    an exception of the password context, which no handler catches and
    FastAPI answers with 500 Internal Server Error. *)
Inductive Raised :=
| HTTP (e : HTTPException)
| Uncaught.

(** A JSON object with string values, as the handlers return. *)
Abbreviation json := (list (string * string)) (only parsing).

(** ** The session monad *)

Record Session := mkSession {
  committed : list User;
  working : list User
}.

Definition M (A : Type) : Type := Session → (Raised + A) * Session.

Global Instance M_ret : MRet M := λ A a s, (inr a, s).

Global Instance M_bind : MBind M := λ A B k m s,
  match m s with
  | (inl e, s') => (inl e, s')
  | (inr a, s') => k a s'
  end.

Definition raise {A} (e : Raised) : M A := λ s, (inl e, s).

(** A call into the password context, which returns ([Some]) or raises
    ([None]); nothing around the call catches the exception. *)
Definition call {A} (r : option A) : M A :=
  match r with
  | Some a => mret a
  | None => raise Uncaught
  end.

(** A row object handed out by a query: its position in the table, which is
    its identity for later attribute writes, and its columns when read. *)
Abbreviation row := (nat * User)%type (only parsing).

(** [db.query(models.User).filter(P).first()] *)
Definition query_first (P : User → Prop) `{∀ u, Decision (P u)} : M (option row) :=
  λ s, (inr (list_find P (working s)), s).

(** [db.query(models.User).filter(P).all()] *)
Definition query_all (P : User → Prop) `{∀ u, Decision (P u)} : M (list row) :=
  λ s, (inr (filter (λ r, P r.2) (imap pair (working s))), s).

(** An attribute write [obj.attr = v] on the row object at position [i]. *)
Definition setattr (i : nat) (f : User → User) : M unit :=
  λ s, (inr (), mkSession (committed s) (alter f i (working s))).

(** [db.add(obj)] *)
Definition add (u : User) : M unit :=
  λ s, (inr (), mkSession (committed s) (working s ++ [u])).

(** [db.commit()] *)
Definition commit : M unit :=
  λ s, (inr (), mkSession (working s) (working s)).

(** The rows the session currently sees; the storage engine reads them
    when it picks the key of a new row. *)
Definition rows : M (list User) := λ s, (inr (working s), s).

(** [for x in xs: body x] *)
Fixpoint for_each {X} (xs : list X) (body : X → M unit) : M unit :=
  match xs with
  | [] => mret ()
  | x :: xs' => body x ;; for_each xs' body
  end.

(** [get_db] around a handler, or the [SessionLocal()] ... [db.close()] of
    the sweeper: open a session on the table, run, keep what was
    committed. *)
Definition run {A} (h : M A) (db : list User) : (Raised + A) * list User :=
  match h (mkSession db db) with
  | (r, s) => (r, committed s)
  end.

(** The row [db.query(models.User).filter(models.User.username == name).first()]
    finds in a table. *)
Abbreviation find_user name db :=
  (list_find (λ u : User, username u = name) db).

(** ** server/main.py *)

Section Server.

(** The collaborators of the handlers that are not part of the presence
    logic: [pwd_context.hash] (bcrypt, which draws a salt),
    [pwd_context.verify], and the key the storage engine gives to a new
    row of the table.  Both calls into the password context can raise
    instead of returning (bcrypt refuses a password with a NUL byte,
    [verify] a stored string it does not recognise as a hash): that is
    [None]. *)
Context (pwd_hash : string → string → option string).
Context (pwd_verify : string → string → option bool).
Context (next_id : list User → Z).

Definition already_registered : Raised :=
  HTTP (mkHTTPException 400 "Username already registered").
Definition invalid_credentials : Raised :=
  HTTP (mkHTTPException 400 "Invalid credentials").
Definition user_not_found : Raised :=
  HTTP (mkHTTPException 404 "User not found").

(** One pass of the [while True] body of [prune_users]; the
    [asyncio.sleep(10)] between passes is the caller's. *)
Definition prune_users (now : datetime) : M unit :=
  let cutoff := now - timedelta 60 in
  stale_users ← query_all (λ u, is_online u = true ∧ last_ping u < cutoff);
  for_each stale_users (λ user,
    setattr user.1 (set_is_online false) ;;
    setattr user.1 (set_is_busy false)) ;;
  match stale_users with
  | [] => mret ()
  | _ :: _ => commit
  end.

Definition register (salt : string) (now : datetime) (user : UserCreate) : M json :=
  db_user ← query_first (λ u, username u = uc_username user);
  match db_user with
  | Some _ => raise already_registered
  | None =>
      hashed_password ← call (pwd_hash salt (uc_password user));
      table ← rows;
      let new_user :=
        new_User (next_id table) now (uc_username user) hashed_password in
      add new_user ;;
      commit ;;
      mret [("message", "User created successfully")]
  end.

(** [not db_user or not pwd_context.verify(...)]: the password is only
    checked when a row was found, and both ways raise the one exception
    of line 98; an exception of [verify] itself leaves the handler. *)
Definition login (now : datetime) (user : UserLogin) : M json :=
  db_user ← query_first (λ u, username u = ul_username user);
  match db_user with
  | Some (i, u) =>
      verified ← call (pwd_verify (ul_password user) (hashed_password u));
      if negb verified
      then raise invalid_credentials
      else
        setattr i (set_is_online true) ;;
        setattr i (set_last_ping now) ;;
        commit ;;
        mret [("username", username u); ("message", "Login successful")]
  | None => raise invalid_credentials
  end.

Definition ping (now : datetime) (name : string) : M json :=
  db_user ← query_first (λ u, username u = name);
  match db_user with
  | None => raise user_not_found
  | Some (i, _) =>
      setattr i (set_last_ping now) ;;
      setattr i (set_is_online true) ;;
      commit ;;
      mret [("status", "ok")]
  end.

Definition get_users (now : datetime) : M (list User) :=
  let cutoff := now - timedelta 60 in
  users ← query_all (λ u, is_online u = true ∧ last_ping u > cutoff
                           ∧ is_busy u = false);
  mret (users.*2).

Definition update_status (name : string) (busy : bool) : M json :=
  db_user ← query_first (λ u, username u = name);
  match db_user with
  | None => raise user_not_found
  | Some (i, _) =>
      setattr i (set_is_busy busy) ;;
      commit ;;
      mret [("status", "updated")]
  end.

End Server.

(** ** The server as a transition system *)

(** What reaches the table: a request of a client, or a pass of the sweeper
    started by [startup_event]. *)
Inductive Request :=
| Register (salt : string) (user : UserCreate)
| Login (user : UserLogin)
| Ping (name : string)
| GetUsers
| UpdateStatus (name : string) (busy : bool).

Inductive Event :=
| Call (r : Request)
| Sweep.

Section System.

Context (pwd_hash : string → string → option string).
Context (pwd_verify : string → string → option bool).
Context (next_id : list User → Z).

(** The table after a request served at time [now]. *)
Definition serve (now : datetime) (r : Request) (db : list User) : list User :=
  match r with
  | Register salt user => (run (register pwd_hash next_id salt now user) db).2
  | Login user => (run (login pwd_verify now user) db).2
  | Ping name => (run (ping now name) db).2
  | GetUsers => (run (get_users now) db).2
  | UpdateStatus name busy => (run (update_status name busy) db).2
  end.

Definition step (now : datetime) (e : Event) (db : list User) : list User :=
  match e with
  | Call r => serve now r db
  | Sweep => (run (prune_users now) db).2
  end.

(** The tables reachable from the empty one by events that [allowed]
    admits in the table they meet.  The clock of each event is free, so
    every run of the server with a real clock is among these. *)
Inductive reachable (allowed : list User → Event → Prop) : list User → Prop :=
| reachable_empty : reachable allowed []
| reachable_step db now e :
    reachable allowed db → allowed db e → reachable allowed (step now e db).

End System.

(** Every event is admitted. *)
Definition any_event : list User → Event → Prop := λ _ _, True.

(** Busy is only switched on for a user whose row is online. *)
Definition busy_only_online : list User → Event → Prop := λ db e,
  match e with
  | Call (UpdateStatus name true) =>
      ∀ i u, find_user name db = Some (i, u) → is_online u = true
  | _ => True
  end.

(** P1 of the design: no row is offline and busy. *)
Definition no_busy_offline (db : list User) : Prop :=
  ∀ u, u ∈ db → is_online u = false → is_busy u = false.

(** What the sweeper does to a row it found stale. *)
Definition evict (u : User) : User := set_is_busy false (set_is_online false u).

(** The rows [get_users] answers with, and their keys. *)
Definition listed (now : datetime) (db : list User) : list User :=
  match run (get_users now) db with
  | (inr users, _) => users
  | (inl _, _) => []
  end.

(** The body of the response, through [response_model=List[UserResponse]],
    and the names a client reads off it. *)
Definition get_users_response (now : datetime) (db : list User) : list UserResponse :=
  to_UserResponse <$> listed now db.

Definition listAvailable (now : datetime) (db : list User) : list string :=
  ur_username <$> get_users_response now db.

(** The filter of the sweeper and of the listing, at a given clock. *)
Definition stale (now : datetime) (u : User) : Prop :=
  is_online u = true ∧ last_ping u < now - timedelta 60.

Definition available (now : datetime) (u : User) : Prop :=
  is_online u = true ∧ last_ping u > now - timedelta 60 ∧ is_busy u = false.

Global Instance stale_dec now u : Decision (stale now u).
Proof. unfold stale. apply _. Defined.

Global Instance available_dec now u : Decision (available now u).
Proof. unfold available. apply _. Defined.

(** A handler that, when it raises, hands the session back as it got it:
    nothing written, nothing committed. *)
Definition fails_cleanly {A} (h : M A) : Prop :=
  ∀ s e s', h s = (inl e, s') → s' = s.

(** ** Sample tables and collaborators

    Concrete rows, events and stand-ins for the password context and the
    key generator, on which the statements below are also run. *)

Definition alice_busy_since_0 : User := mkUser 1 "alice" "h1" true 0 true.
Definition bob_fresh_at_50 : User := mkUser 2 "bob" "h2" true (timedelta 50) false.

(** Whether a password holds a NUL byte, which bcrypt refuses. *)
Fixpoint has_nul (p : string) : bool :=
  match p with
  | EmptyString => false
  | String c p' => if Ascii.eqb c Ascii.zero then true else has_nul p'
  end.

Definition concat_hash : string → string → option string :=
  λ salt p, if has_nul p then None else Some (salt +:+ p).
Definition concat_verify : string → string → option bool :=
  λ p h, if has_nul p then None else Some (bool_decide (h = "s" +:+ p)).
Definition count_id : list User → Z :=
  λ db, 1 + foldr Z.max 0 (user_id <$> db).

(** A password with a NUL byte in it. *)
Definition nul_password : string :=
  "a" +:+ String Ascii.zero "b".

(** The three calls of a client that registers, then declares itself busy
    before ever logging in, and of one that logs in first. *)
Definition register_eve : Event := Call (Register "s" (mkUserCreate "eve" "pw")).
Definition login_eve : Event := Call (Login (mkUserLogin "eve" "pw")).
Definition eve_busy : Event := Call (UpdateStatus "eve" true).
Definition register_dave : Event := Call (Register "s" (mkUserCreate "dave" "pw")).

(** What one pass of the sweeper makes of a row. *)
Definition swept (now : datetime) (u : User) : User :=
  if decide (stale now u) then evict u else u.

(** The columns no handler assigns. *)
Definition identity_of (u : User) : Z * string * string :=
  (user_id u, username u, hashed_password u).

(** ** verify_backend.py *)

(** The status line a client reads: 200 for a returned body, the code of
    an [HTTPException], 500 for an exception nobody caught. *)
Definition status_code_of {A} (res : Raised + A) : Z :=
  match res with
  | inl (HTTP e) => status_code e
  | inl Uncaught => 500
  | inr _ => 200
  end.

Section Client.

Context (pwd_hash : string → string → option string).
Context (pwd_verify : string → string → option bool).
Context (next_id : list User → Z).

(** [test_flow] against a server whose table is [db]: [suffix] is the
    draw of [random.randint], [clock k] the server's clock when it serves
    the request of step [k] of the script, [salt] the salt of the one
    registration.  The answer is [inr ()] when the script runs through and
    [inl n] when the [assert] of line [n] fails; the table is the server's
    afterwards. *)
Definition test_flow (suffix : N) (salt : string) (clock : nat → datetime)
    (db : list User) : (nat + unit) * list User :=
  let username := "User" +:+ pretty suffix in
  let db :=
    (run (register pwd_hash next_id salt (clock 1%nat)
            (mkUserCreate username "password123")) db).2 in
  let res := run (login pwd_verify (clock 2%nat)
                    (mkUserLogin username "password123")) db in
  let db := res.2 in
  if negb (bool_decide (status_code_of res.1 = 200)) then (inl 20%nat, db) else
  let users := ur_username <$> get_users_response (clock 3%nat) db in
  let db := (run (get_users (clock 3%nat)) db).2 in
  if negb (bool_decide (username ∈ users)) then (inl 27%nat, db) else
  let db := (run (update_status username true) db).2 in
  let body := get_users_response (clock 5%nat) db in
  let db := (run (get_users (clock 5%nat)) db).2 in
  if negb (bool_decide (length body = 0%nat)) then (inl 37%nat, db) else
  let db := (run (update_status username false) db).2 in
  let body := get_users_response (clock 7%nat) db in
  let db := (run (get_users (clock 7%nat)) db).2 in
  if negb (bool_decide (length body = 1%nat)) then (inl 47%nat, db) else
  (inr (), db).

End Client.

(** Closes the goal that a handler built from a lookup, a password check
    and a raise gives the session back when it raises. *)
Ltac raise_or_return :=
  unfold fails_cleanly, mbind, M_bind, call, mret, M_ret, query_first, raise;
  intros s e s';
  simpl;
  repeat match goal with
         | |- context [list_find ?P ?l] => destruct (list_find P l) as [[? ?]|]
         | |- context [match ?o with Some _ => _ | None => _ end] =>
             destruct o
         | |- context [if negb ?b then _ else _] => destruct b; cbn [negb]
         end;
  simpl; congruence.

(** ** The handlers in closed form *)

Section Queries.

Context (P : User → Prop) `{∀ u, Decision (P u)}.

(** The rows of [.all()] read back the rows of the table that pass the
    filter, in table order. *)
Lemma query_all_rows (tag : nat → nat) (l : list User) :
  (filter (λ r : nat * User, P r.2) (imap (λ i x, (tag i, x)) l)).*2 = filter P l.
Proof.
  revert tag. induction l as [|x l IH]; intros tag; [done|].
  rewrite imap_cons, !filter_cons. simpl.
  specialize (IH (tag ∘ S)). simpl in IH.
  destruct (decide (P x)); simpl; by rewrite <- IH.
Qed.

(** Writing through every row object of [.all()] rewrites exactly the
    rows that pass the filter. *)
Lemma write_all_rows (g : User → User) (pre l : list User) :
  foldl (λ t (r : nat * User), alter g r.1 t) (pre ++ l)
    (filter (λ r : nat * User, P r.2) (imap (λ i x, (length pre + i, x)%nat) l))
  = pre ++ ((λ u, if decide (P u) then g u else u) <$> l).
Proof.
  revert pre. induction l as [|x l IH]; intros pre; [done|].
  rewrite imap_cons, filter_cons. simpl.
  assert (Hshift :
    imap ((λ i y, (length pre + i, y)%nat) ∘ S) l
    = imap (λ i y, (length (pre ++ [x]) + i, y)%nat) l).
  { apply imap_ext. intros i y _. simpl. rewrite length_app. simpl.
    f_equal. lia. }
  destruct (decide (P x)) as [HP|HP]; simpl.
  - replace (alter g (length pre + 0)%nat (pre ++ x :: l))
      with (pre ++ g x :: l) by (by rewrite alter_app_r).
    assert (Hshift' :
      imap ((λ i y, (length pre + i, y)%nat) ∘ S) l
      = imap (λ i y, (length (pre ++ [g x]) + i, y)%nat) l).
    { rewrite Hshift. apply imap_ext. intros i y _.
      by rewrite !length_app. }
    rewrite Hshift'.
    replace (pre ++ g x :: l) with ((pre ++ [g x]) ++ l)
      by (by rewrite <- app_assoc).
    rewrite IH. by rewrite <- app_assoc.
  - rewrite Hshift.
    replace (pre ++ x :: l) with ((pre ++ [x]) ++ l)
      by (by rewrite <- app_assoc).
    rewrite IH. by rewrite <- app_assoc.
Qed.

End Queries.

Lemma for_each_setattr (f1 f2 : User → User) (rs : list (nat * User)) (s : Session) :
  for_each rs (λ user, setattr user.1 f1 ;; setattr user.1 f2) s
  = (inr (), mkSession (committed s)
       (foldl (λ t (r : nat * User), alter (f2 ∘ f1) r.1 t) (working s) rs)).
Proof.
  revert s. induction rs as [|r rs IH]; intros s.
  - by destruct s.
  - simpl. unfold mbind at 1, M_bind. unfold mbind at 1, M_bind, setattr at 1 2.
    simpl. rewrite IH. simpl. by rewrite list_alter_alter_eq.
Qed.

Section Closed_forms.

Context (pwd_hash : string → string → option string).
Context (pwd_verify : string → string → option bool).
Context (next_id : list User → Z).

Lemma run_register salt now user db :
  run (register pwd_hash next_id salt now user) db =
  match find_user (uc_username user) db with
  | Some _ => (inl already_registered, db)
  | None =>
      match pwd_hash salt (uc_password user) with
      | Some hashed =>
          (inr [("message", "User created successfully")],
           db ++ [new_User (next_id db) now (uc_username user) hashed])
      | None => (inl Uncaught, db)
      end
  end.
Proof.
  unfold run, register, mbind, M_bind, query_first. simpl.
  destruct (find_user (uc_username user) db); [done|].
  by destruct (pwd_hash salt (uc_password user)).
Qed.

Lemma run_login now user db :
  run (login pwd_verify now user) db =
  match find_user (ul_username user) db with
  | Some (i, u) =>
      match pwd_verify (ul_password user) (hashed_password u) with
      | Some true =>
          (inr [("username", username u); ("message", "Login successful")],
           alter (set_last_ping now) i (alter (set_is_online true) i db))
      | Some false => (inl invalid_credentials, db)
      | None => (inl Uncaught, db)
      end
  | None => (inl invalid_credentials, db)
  end.
Proof.
  unfold run, login, mbind, M_bind, query_first. simpl.
  destruct (find_user (ul_username user) db) as [[i u]|]; [|done].
  by destruct (pwd_verify _ _) as [[|]|].
Qed.

Lemma run_ping now name db :
  run (ping now name) db =
  match find_user name db with
  | Some (i, _) =>
      (inr [("status", "ok")],
       alter (set_is_online true) i (alter (set_last_ping now) i db))
  | None => (inl user_not_found, db)
  end.
Proof.
  unfold run, ping, mbind, M_bind, query_first. simpl.
  by destruct (find_user name db) as [[i u]|].
Qed.

Lemma run_update_status name busy db :
  run (update_status name busy) db =
  match find_user name db with
  | Some (i, _) => (inr [("status", "updated")], alter (set_is_busy busy) i db)
  | None => (inl user_not_found, db)
  end.
Proof.
  unfold run, update_status, mbind, M_bind, query_first. simpl.
  by destruct (find_user name db) as [[i u]|].
Qed.

Lemma run_get_users now db :
  run (get_users now) db = (inr (filter (available now) db), db).
Proof.
  unfold run, get_users, mbind, M_bind, query_all. simpl.
  unfold mret, M_ret. do 2 f_equal.
  exact (query_all_rows (available now) (λ i, i) db).
Qed.

Lemma run_prune_users now db :
  run (prune_users now) db =
  (inr (), (λ u, if decide (stale now u) then evict u else u) <$> db).
Proof.
  pose proof (write_all_rows (stale now) evict [] db) as Hw. simpl in Hw.
  unfold run, prune_users. unfold mbind at 1, M_bind at 1. unfold query_all at 1.
  simpl. unfold mbind at 1, M_bind at 1.
  rewrite for_each_setattr. simpl.
  fold (stale now) in *.
  change (set_is_busy false ∘ set_is_online false) with evict.
  destruct (filter _ _) as [|r rs] eqn:Hrs.
  - simpl in *. by rewrite <- Hw.
  - unfold commit. simpl. by rewrite <- Hw.
Qed.

End Closed_forms.

(** ** Looking a user up after a write *)

Lemma find_user_Some name db i u :
  find_user name db = Some (i, u) → db !! i = Some u ∧ username u = name.
Proof. intros (? & ? & _)%list_find_Some. done. Qed.

Lemma find_user_cons name x db :
  find_user name (x :: db)
  = if decide (username x = name) then Some (0%nat, x)
    else prod_map S id <$> find_user name db.
Proof. reflexivity. Qed.

(** A write that keeps the [username] column keeps every lookup by name at
    its position. *)
Lemma find_user_alter name (f : User → User) i db :
  (∀ u, username (f u) = username u) →
  find_user name (alter f i db)
  = (λ r : nat * User, (r.1, if decide (r.1 = i) then f r.2 else r.2))
      <$> find_user name db.
Proof.
  intros Hf. revert i. induction db as [|x db IH]; intros i; [done|].
  destruct i as [|i].
  - change (alter f 0%nat (x :: db)) with (f x :: db).
    rewrite !find_user_cons, Hf.
    destruct (decide (username x = name)); [done|].
    by destruct (find_user name db) as [[j v]|].
  - change (alter f (S i) (x :: db)) with (x :: alter f i db).
    rewrite !find_user_cons.
    destruct (decide (username x = name)); [done|].
    rewrite IH. destruct (find_user name db) as [[j v]|]; [|done].
    simpl. destruct (decide (j = i)), (decide (S j = S i)); done || lia.
Qed.

Lemma find_user_fmap name (f : User → User) (db : list User) :
  (∀ u, username (f u) = username u) →
  find_user name (f <$> db) = prod_map id f <$> find_user name db.
Proof.
  intros Hf. rewrite list_find_fmap. f_equal.
  apply list_find_ext. intros u. simpl. by rewrite Hf.
Qed.

Lemma find_user_other name other (f : User → User) i u db :
  (∀ v, username (f v) = username v) →
  find_user name db = Some (i, u) → other ≠ name →
  find_user other (alter f i db) = find_user other db.
Proof.
  intros Hf [Hi Hu]%find_user_Some Hne. rewrite find_user_alter by done.
  destruct (find_user other db) as [[j v]|] eqn:Hj; [|done].
  apply find_user_Some in Hj as [Hj Hv]. simpl.
  destruct (decide (j = i)) as [->|]; [|done]. congruence.
Qed.

Lemma usernames_alter (f : User → User) (i : nat) (db : list User) :
  (∀ u, username (f u) = username u) →
  username <$> alter f i db = username <$> db.
Proof.
  intros Hf. rewrite (list_fmap_alter username f id).
  - by apply list_alter_id.
  - apply Forall_forall. intros u _. apply Hf.
Qed.

(** In a table whose usernames are pairwise distinct, the row of a name is
    the only row with that name. *)
Lemma unique_username (db : list User) u v :
  NoDup (username <$> db) → u ∈ db → v ∈ db → username u = username v → u = v.
Proof.
  intros Hnd [i Hi]%list_elem_of_lookup [j Hj]%list_elem_of_lookup Huv.
  assert (i = j) as ->; [|congruence].
  eapply NoDup_lookup; [exact Hnd| |].
  - rewrite list_lookup_fmap, Hi. done.
  - rewrite list_lookup_fmap, Hj. simpl. by rewrite Huv.
Qed.

Lemma stale_iff now u :
  stale now u ↔ is_online u = true ∧ now - last_ping u > ttl.
Proof. unfold stale, ttl. split; intros [? ?]; split; done || lia. Qed.

Lemma available_iff now u :
  available now u ↔
  is_online u = true ∧ is_busy u = false ∧ now - last_ping u < ttl.
Proof. unfold available, ttl. split; intros (? & ? & ?); split_and!; done || lia. Qed.

Lemma listAvailable_usernames now db :
  listAvailable now db = username <$> listed now db.
Proof.
  unfold listAvailable, get_users_response. by rewrite <- list_fmap_compose.
Qed.

Lemma elem_of_listed now db u :
  u ∈ listed now db ↔ u ∈ db ∧ available now u.
Proof.
  unfold listed. rewrite run_get_users, list_elem_of_filter. tauto.
Qed.

(** ** The sweeper *)

(** C2 (P3, eviction correctness): a sweeper pass completes, and it turns
    the row of every key that is online with [now - last_ping > ttl] into
    the same row with [is_online] and [is_busy] both false; every row that
    is not online or whose last ping is within the window is left as it
    was. *)
Theorem prune_users_evicts_stale now db k i u :
  find_user k db = Some (i, u) →
  let db' := (run (prune_users now) db).2 in
  (run (prune_users now) db).1 = inr () ∧
  (is_online u = true ∧ now - last_ping u > ttl →
     find_user k db' = Some (i, evict u)
     ∧ is_online (evict u) = false ∧ is_busy (evict u) = false) ∧
  (∀ j v, db !! j = Some v →
     ¬ (is_online v = true ∧ now - last_ping v > ttl) → db' !! j = Some v).
Proof.
  intros Hk db'. subst db'. rewrite run_prune_users. simpl.
  split_and!; [done| |].
  - intros Hst%stale_iff.
    rewrite find_user_fmap by (intros v; by destruct (decide (stale now v))).
    rewrite Hk. simpl. by rewrite decide_True.
  - intros j v Hj Hst. rewrite list_lookup_fmap, Hj. simpl.
    rewrite decide_False; [done|]. by rewrite stale_iff.
Qed.

Lemma prune_users_evicts_stale_witness :
  let db := [alice_busy_since_0; bob_fresh_at_50] in
  let db' := (run (prune_users (timedelta 61)) db).2 in
  (run (prune_users (timedelta 61)) db).1 = inr () ∧
  (is_online alice_busy_since_0 = true
   ∧ timedelta 61 - last_ping alice_busy_since_0 > ttl →
     find_user "alice" db' = Some (0%nat, evict alice_busy_since_0)
     ∧ is_online (evict alice_busy_since_0) = false
     ∧ is_busy (evict alice_busy_since_0) = false) ∧
  (∀ j v, db !! j = Some v →
     ¬ (is_online v = true ∧ timedelta 61 - last_ping v > ttl) →
     db' !! j = Some v).
Proof.
  apply (prune_users_evicts_stale (timedelta 61)
           [alice_busy_since_0; bob_fresh_at_50] "alice" 0%nat alice_busy_since_0).
  reflexivity.
Defined.

(** ** The listing *)

(** C4 (P5, busy exclusion): the row of a key that is online and busy is
    not among the rows [get_users] returns, whatever its [last_ping] and
    the clock; with usernames unique in the table, as the column
    declares, the key is not among the listed names either. *)
Theorem busy_user_not_listed now db k i u :
  NoDup (username <$> db) →
  find_user k db = Some (i, u) →
  is_online u = true → is_busy u = true →
  (u ∉ listed now db) ∧ (k ∉ listAvailable now db).
Proof.
  intros Hnd [Hi Hk]%find_user_Some _ Hbusy. split.
  - intros [_ (_ & _ & Hfree)]%elem_of_listed. congruence.
  - rewrite listAvailable_usernames.
    intros (v & Hv & [Hin (_ & _ & Hfree)]%elem_of_listed)%list_elem_of_fmap.
    assert (u = v) as ->; [|congruence].
    apply (unique_username db); [done| |done|congruence].
    by apply list_elem_of_lookup_2 with i.
Qed.

Lemma busy_user_not_listed_witness :
  (alice_busy_since_0 ∉ listed 1 [alice_busy_since_0; bob_fresh_at_50])
  ∧ ("alice" ∉ listAvailable 1 [alice_busy_since_0; bob_fresh_at_50]).
Proof.
  apply (busy_user_not_listed 1 [alice_busy_since_0; bob_fresh_at_50]
           "alice" 0%nat alice_busy_since_0).
  - apply (bool_decide_unpack _). vm_compute. exact I.
  - reflexivity.
  - reflexivity.
  - reflexivity.
Defined.

Lemma listed_filter now db :
  listed now db
  = filter (λ u, is_online u = true ∧ is_busy u = false
                 ∧ now - last_ping u < ttl) db.
Proof.
  unfold listed. rewrite run_get_users.
  apply list_filter_iff. intros u. apply available_iff.
Qed.

(** The table after a successful heartbeat, whichever of [login] and
    [ping] wrote it. *)
Lemma lookup_heartbeat (f : User → User) i u (db : list User) :
  db !! i = Some u → alter f i db !! i = Some (f u).
Proof. intros Hi. by rewrite list_lookup_alter_eq, Hi. Qed.

(** On the boundary [t' = t + ttl] the listing has already dropped the
    user: C3 as stated fails there. *)
Lemma ping_then_listed_at_ttl_counterexample :
  let db := [mkUser 1 "carol" "h" false 0 false] in
  let db' := (run (ping 0 "carol") db).2 in
  (run (ping 0 "carol") db).1 = inr [("status", "ok")]
  ∧ find_user "carol" db' = Some (0%nat, mkUser 1 "carol" "h" true 0 false)
  ∧ 0 + ttl ≤ 0 + ttl
  ∧ (0 + ttl) - 0 ≤ ttl
  ∧ ("carol" ∉ listAvailable (0 + ttl) db').
Proof.
  split_and!; [reflexivity|reflexivity|lia|lia|].
  apply (bool_decide_unpack _). vm_compute. exact I.
Qed.

(** C3 (P2, heartbeat freshness), amended: after [ping(k)] at time [t]
    succeeds on a key that is not busy, [get_users] at any time [t'] with
    [t' < t + ttl] lists [k]; and [get_users] at [now] returns exactly the
    rows, in table order, that are online, not busy and have
    [now - last_ping < ttl].  The window is open at [ttl]. *)
Theorem ping_then_listed t t' k db i u :
  find_user k db = Some (i, u) →
  is_busy u = false →
  t' < t + ttl →
  let db' := (run (ping t k) db).2 in
  (run (ping t k) db).1 = inr [("status", "ok")]
  ∧ k ∈ listAvailable t' db'
  ∧ (∀ now tbl,
       listed now tbl
       = filter (λ v, is_online v = true ∧ is_busy v = false
                      ∧ now - last_ping v < ttl) tbl).
Proof.
  intros Hk Hfree Ht db'. subst db'. rewrite run_ping, Hk. simpl.
  split_and!; [done| |apply listed_filter].
  apply find_user_Some in Hk as [Hi Hname].
  rewrite listAvailable_usernames. apply list_elem_of_fmap.
  exists (set_is_online true (set_last_ping t u)). split; [done|].
  apply elem_of_listed. split.
  - apply list_elem_of_lookup_2 with i.
    rewrite list_alter_alter_eq.
    by apply (lookup_heartbeat (set_is_online true ∘ set_last_ping t)).
  - apply available_iff. simpl. split_and!; [done|done|lia].
Qed.

Lemma ping_then_listed_witness :
  let db := [mkUser 1 "carol" "h" false 0 false] in
  let db' := (run (ping 0 "carol") db).2 in
  (run (ping 0 "carol") db).1 = inr [("status", "ok")]
  ∧ "carol" ∈ listAvailable (ttl - 1) db'
  ∧ (∀ now tbl,
       listed now tbl
       = filter (λ v, is_online v = true ∧ is_busy v = false
                      ∧ now - last_ping v < ttl) tbl).
Proof.
  apply (ping_then_listed 0 (ttl - 1) "carol"
           [mkUser 1 "carol" "h" false 0 false] 0%nat
           (mkUser 1 "carol" "h" false 0 false)).
  - reflexivity.
  - reflexivity.
  - reflexivity.
Defined.

(** ** Busy status *)

(** C7 (frame of [update_status]): on a key in the table the call answers
    "updated", sets the [is_busy] column of the key's row to the given
    value and leaves its [is_online] and [last_ping], every other row and
    every lookup of another name as they were; it raises 404 "User not
    found" exactly when the key has no row. *)
Theorem update_status_frame name busy db :
  let out := run (update_status name busy) db in
  (find_user name db = None ↔ out.1 = inl user_not_found) ∧
  (∀ i u, find_user name db = Some (i, u) →
     out.1 = inr [("status", "updated")]
     ∧ find_user name out.2 = Some (i, set_is_busy busy u)
     ∧ is_busy (set_is_busy busy u) = busy
     ∧ is_online (set_is_busy busy u) = is_online u
     ∧ last_ping (set_is_busy busy u) = last_ping u
     ∧ length out.2 = length db
     ∧ (∀ j, j ≠ i → out.2 !! j = db !! j)
     ∧ (∀ other, other ≠ name → find_user other out.2 = find_user other db)).
Proof.
  intros out. subst out. rewrite run_update_status.
  destruct (find_user name db) as [[i u]|] eqn:Hk; simpl.
  - split; [split; discriminate|]. intros ? ? [= <- <-].
    split_and!; try done.
    + rewrite find_user_alter, Hk by done. simpl. by rewrite decide_True.
    + apply length_alter.
    + intros j Hj. by apply list_lookup_alter_ne.
    + intros other Hne. by apply find_user_other with name u.
  - split; [done|]. intros; discriminate.
Qed.

Lemma update_status_frame_witness :
  let out := run (update_status "bob" true) [alice_busy_since_0; bob_fresh_at_50] in
  out.1 = inr [("status", "updated")]
  ∧ find_user "bob" out.2 = Some (1%nat, set_is_busy true bob_fresh_at_50)
  ∧ is_busy (set_is_busy true bob_fresh_at_50) = true
  ∧ is_online (set_is_busy true bob_fresh_at_50) = is_online bob_fresh_at_50
  ∧ last_ping (set_is_busy true bob_fresh_at_50) = last_ping bob_fresh_at_50
  ∧ length out.2 = length [alice_busy_since_0; bob_fresh_at_50]
  ∧ (∀ j, j ≠ 1%nat → out.2 !! j = [alice_busy_since_0; bob_fresh_at_50] !! j)
  ∧ (∀ other, other ≠ "bob" →
       find_user other out.2
       = find_user other [alice_busy_since_0; bob_fresh_at_50]).
Proof.
  apply (update_status_frame "bob" true [alice_busy_since_0; bob_fresh_at_50]).
  reflexivity.
Defined.

(** ** Heartbeats *)

Lemma heartbeat_twice t (u : User) :
  set_is_online true (set_last_ping t (set_is_online true (set_last_ping t u)))
  = set_is_online true (set_last_ping t u).
Proof. reflexivity. Qed.

(** C8 (idempotence of [ping]): for a key in the table, a second
    [ping(k)] at the same clock [t] right after the first answers the same
    and leaves the table of the first; that table has the key's row online
    with [last_ping = t], its [is_busy] as before, and every other row
    untouched. *)
Theorem ping_idempotent t k db i u :
  find_user k db = Some (i, u) →
  let once := run (ping t k) db in
  run (ping t k) once.2 = once
  ∧ once.1 = inr [("status", "ok")]
  ∧ find_user k once.2 = Some (i, set_is_online true (set_last_ping t u))
  ∧ is_online (set_is_online true (set_last_ping t u)) = true
  ∧ last_ping (set_is_online true (set_last_ping t u)) = t
  ∧ is_busy (set_is_online true (set_last_ping t u)) = is_busy u
  ∧ length once.2 = length db
  ∧ (∀ j, j ≠ i → once.2 !! j = db !! j).
Proof.
  intros Hk once. subst once. rewrite (run_ping t k db), Hk. simpl.
  rewrite list_alter_alter_eq.
  assert (Hk' : find_user k (alter (set_is_online true ∘ set_last_ping t) i db)
                = Some (i, set_is_online true (set_last_ping t u))).
  { rewrite find_user_alter, Hk by done. simpl. by rewrite decide_True. }
  split_and!; try done.
  - rewrite run_ping, Hk'. f_equal. rewrite !list_alter_alter_eq.
    apply list_alter_ext; [|done]. intros v _. apply heartbeat_twice.
  - apply length_alter.
  - intros j Hj. by apply list_lookup_alter_ne.
Qed.

Lemma ping_idempotent_witness :
  let u := alice_busy_since_0 in
  let once := run (ping 7 "alice") [alice_busy_since_0; bob_fresh_at_50] in
  run (ping 7 "alice") once.2 = once
  ∧ once.1 = inr [("status", "ok")]
  ∧ find_user "alice" once.2 = Some (0%nat, set_is_online true (set_last_ping 7 u))
  ∧ is_online (set_is_online true (set_last_ping 7 u)) = true
  ∧ last_ping (set_is_online true (set_last_ping 7 u)) = 7
  ∧ is_busy (set_is_online true (set_last_ping 7 u)) = is_busy u
  ∧ length once.2 = length [alice_busy_since_0; bob_fresh_at_50]
  ∧ (∀ j, j ≠ 0%nat → once.2 !! j = [alice_busy_since_0; bob_fresh_at_50] !! j).
Proof.
  apply (ping_idempotent 7 "alice" [alice_busy_since_0; bob_fresh_at_50]
           0%nat alice_busy_since_0).
  reflexivity.
Defined.

(** ** Registration *)

Lemma find_user_is_Some name (db : list User) :
  is_Some (find_user name db) ↔ name ∈ username <$> db.
Proof.
  rewrite list_elem_of_fmap. split.
  - intros [[i u] [Hi Hu]%find_user_Some]. exists u. split; [done|].
    by apply list_elem_of_lookup_2 with i.
  - intros (u & -> & Hin). by apply list_find_elem_of with u.
Qed.

Section Registration.

Context (pwd_hash : string → string → option string).
Context (next_id : list User → Z).

(** C5 (P4, duplicate rejection), amended: from a table without the key,
    when the password context hashes the password of the first
    [register], that call succeeds and appends the key's row, offline and
    not busy, and a second one, whatever its password, raises 400
    "Username already registered" and changes nothing; in any table
    [register] raises that error exactly when a row with the username
    exists. *)
Theorem register_twice salt1 salt2 t1 t2 user1 user2 db hashed :
  uc_username user2 = uc_username user1 →
  find_user (uc_username user1) db = None →
  pwd_hash salt1 (uc_password user1) = Some hashed →
  let first := run (register pwd_hash next_id salt1 t1 user1) db in
  let second := run (register pwd_hash next_id salt2 t2 user2) first.2 in
  first.1 = inr [("message", "User created successfully")]
  ∧ first.2 = db ++ [mkUser (next_id db) (uc_username user1)
                       hashed false t1 false]
  ∧ second.1 = inl already_registered
  ∧ second.2 = first.2
  ∧ (∀ salt now user tbl,
       (run (register pwd_hash next_id salt now user) tbl).1 = inl already_registered
       ↔ uc_username user ∈ username <$> tbl).
Proof.
  intros Hsame Hfree Hhash first second. subst first second.
  rewrite (run_register _ _ salt1 t1 user1 db), Hfree, Hhash. simpl.
  rewrite run_register, Hsame.
  rewrite list_find_app_r by done. simpl.
  rewrite decide_True by done. simpl.
  split_and!; try done.
  intros salt now user tbl. rewrite run_register, <- find_user_is_Some.
  destruct (find_user (uc_username user) tbl) as [[j v]|]; simpl.
  - split; [by eexists|done].
  - split; [|by intros [? ?]].
    by destruct (pwd_hash salt (uc_password user)).
Qed.

(** When the password context refuses the password of a [register] for a
    free name, the call ends in an uncaught exception and the table is as
    before. *)
Lemma register_refused_password salt now user db :
  find_user (uc_username user) db = None →
  pwd_hash salt (uc_password user) = None →
  run (register pwd_hash next_id salt now user) db = (inl Uncaught, db).
Proof. intros Hfree Hraise. by rewrite run_register, Hfree, Hraise. Qed.

End Registration.

Lemma register_twice_witness :
  let register := register concat_hash count_id in
  let first := run (register "s" 3 (mkUserCreate "dave" "pw")) [bob_fresh_at_50] in
  let second := run (register "t" 4 (mkUserCreate "dave" "other")) first.2 in
  first.1 = inr [("message", "User created successfully")]
  ∧ first.2 = [bob_fresh_at_50; mkUser 3 "dave" "spw" false 3 false]
  ∧ second.1 = inl already_registered
  ∧ second.2 = first.2
  ∧ (∀ salt now user tbl,
       (run (register salt now user) tbl).1 = inl already_registered
       ↔ uc_username user ∈ username <$> tbl).
Proof.
  apply (register_twice concat_hash count_id "s" "t" 3 4
           (mkUserCreate "dave" "pw") (mkUserCreate "dave" "other")
           [bob_fresh_at_50] "spw").
  - reflexivity.
  - reflexivity.
  - reflexivity.
Defined.

(** C5 as stated fails: bcrypt refuses a password with a NUL byte, so
    neither of two registrations of a free name with such a password
    succeeds, and neither is answered "Username already registered". *)
Lemma register_twice_nul_password_counterexample :
  let register := register concat_hash count_id in
  let first := run (register "s" 3 (mkUserCreate "dave" nul_password)) [] in
  let second := run (register "t" 4 (mkUserCreate "dave" nul_password)) first.2 in
  find_user "dave" [] = None
  ∧ first = (inl Uncaught, [])
  ∧ second = (inl Uncaught, [])
  ∧ first.1 ≠ inr [("message", "User created successfully")]
  ∧ second.1 ≠ inr [("message", "User created successfully")]
  ∧ second.1 ≠ inl already_registered.
Proof. by vm_compute. Qed.

(** ** Login *)

Section Authentication.

Context (pwd_verify : string → string → option bool).

(** Where [verify] returns False for the known user, the two failures
    of [login] cannot be told apart: a login for a name with no row and a
    login for a name whose row rejects the password raise the same
    exception, 400 "Invalid credentials", whatever the two tables and
    clocks are. *)
Lemma login_failures_equal now1 now2 user1 user2 db1 db2 i u :
  find_user (ul_username user1) db1 = None →
  find_user (ul_username user2) db2 = Some (i, u) →
  pwd_verify (ul_password user2) (hashed_password u) = Some false →
  (run (login pwd_verify now1 user1) db1).1
  = (run (login pwd_verify now2 user2) db2).1
  ∧ (run (login pwd_verify now1 user1) db1).1 = inl invalid_credentials.
Proof.
  intros Hunknown Hknown Hwrong.
  rewrite !run_login, Hunknown, Hknown, Hwrong. done.
Qed.

(** C9 (least disclosure of [login]) fails where [verify] raises: the
    password is only handed to the password context when the name has a
    row, so a password the context refuses is answered with 400 "Invalid
    credentials" for an unknown name and with an uncaught exception, 500,
    for a known one, and the caller can tell the two apart. *)
Theorem login_raise_tells_known_user now1 now2 user1 user2 db1 db2 i u :
  find_user (ul_username user1) db1 = None →
  find_user (ul_username user2) db2 = Some (i, u) →
  pwd_verify (ul_password user2) (hashed_password u) = None →
  (run (login pwd_verify now1 user1) db1).1 = inl invalid_credentials
  ∧ (run (login pwd_verify now2 user2) db2).1 = inl Uncaught
  ∧ status_code_of (run (login pwd_verify now1 user1) db1).1 = 400
  ∧ status_code_of (run (login pwd_verify now2 user2) db2).1 = 500
  ∧ (run (login pwd_verify now1 user1) db1).1
    ≠ (run (login pwd_verify now2 user2) db2).1.
Proof.
  intros Hunknown Hknown Hraise.
  rewrite !run_login, Hunknown, Hknown, Hraise. done.
Qed.

End Authentication.

Lemma login_failures_equal_on_wrong_password :
  (run (login concat_verify 8 (mkUserLogin "nobody" "pw")) []).1
  = (run (login concat_verify 9 (mkUserLogin "bob" "guess")) [bob_fresh_at_50]).1
  ∧ (run (login concat_verify 8 (mkUserLogin "nobody" "pw")) []).1
    = inl invalid_credentials.
Proof.
  apply (login_failures_equal concat_verify 8 9
           (mkUserLogin "nobody" "pw") (mkUserLogin "bob" "guess")
           [] [bob_fresh_at_50] 0%nat bob_fresh_at_50).
  - reflexivity.
  - reflexivity.
  - reflexivity.
Defined.

Lemma login_raise_tells_known_user_witness :
  let unknown := run (login concat_verify 8 (mkUserLogin "nobody" nul_password))
                   [bob_fresh_at_50] in
  let known := run (login concat_verify 9 (mkUserLogin "bob" nul_password))
                 [bob_fresh_at_50] in
  unknown.1 = inl invalid_credentials
  ∧ known.1 = inl Uncaught
  ∧ status_code_of unknown.1 = 400
  ∧ status_code_of known.1 = 500
  ∧ unknown.1 ≠ known.1.
Proof.
  apply (login_raise_tells_known_user concat_verify 8 9
           (mkUserLogin "nobody" nul_password) (mkUserLogin "bob" nul_password)
           [bob_fresh_at_50] [bob_fresh_at_50] 0%nat bob_fresh_at_50).
  - reflexivity.
  - reflexivity.
  - reflexivity.
Defined.

(** ** Failing calls *)

Lemma fails_cleanly_run {A} (h : M A) db e :
  fails_cleanly h → (run h db).1 = inl e → (run h db).2 = db.
Proof.
  intros Hh. unfold run.
  destruct (h (mkSession db db)) as [[e'|a] s'] eqn:Hs; simpl; [|done].
  intros _. by rewrite (Hh _ _ _ Hs).
Qed.

Section Failures.

Context (pwd_hash : string → string → option string).
Context (pwd_verify : string → string → option bool).
Context (next_id : list User → Z).

Lemma register_fails_cleanly salt now user :
  fails_cleanly (register pwd_hash next_id salt now user).
Proof. unfold register. raise_or_return. Qed.

Lemma login_fails_cleanly now user : fails_cleanly (login pwd_verify now user).
Proof. unfold login. raise_or_return. Qed.

Lemma ping_fails_cleanly now name : fails_cleanly (ping now name).
Proof. unfold ping. raise_or_return. Qed.

Lemma update_status_fails_cleanly name busy :
  fails_cleanly (update_status name busy).
Proof. unfold update_status. raise_or_return. Qed.

(** C10 (atomicity on error): when [register] raises "Username already
    registered", [login] raises "Invalid credentials", or [ping] or
    [update_status] raises "User not found", the table after the call is
    the table before it. *)
Theorem failed_call_changes_nothing db e :
  (∀ salt now user,
     (run (register pwd_hash next_id salt now user) db).1 = inl e →
     (run (register pwd_hash next_id salt now user) db).2 = db) ∧
  (∀ now user,
     (run (login pwd_verify now user) db).1 = inl e →
     (run (login pwd_verify now user) db).2 = db) ∧
  (∀ now name,
     (run (ping now name) db).1 = inl e → (run (ping now name) db).2 = db) ∧
  (∀ name busy,
     (run (update_status name busy) db).1 = inl e →
     (run (update_status name busy) db).2 = db).
Proof.
  split_and!; intros; eapply fails_cleanly_run;
    eauto using register_fails_cleanly, login_fails_cleanly,
      ping_fails_cleanly, update_status_fails_cleanly.
Qed.

End Failures.

Lemma failed_call_changes_nothing_witness :
  (run (register concat_hash count_id "s" 5 (mkUserCreate "bob" "pw"))
     [bob_fresh_at_50]).2 = [bob_fresh_at_50]
  ∧ (run (login concat_verify 5 (mkUserLogin "bob" "guess")) [bob_fresh_at_50]).2
    = [bob_fresh_at_50]
  ∧ (run (ping 5 "carol") [bob_fresh_at_50]).2 = [bob_fresh_at_50]
  ∧ (run (update_status "carol" true) [bob_fresh_at_50]).2 = [bob_fresh_at_50].
Proof.
  split_and!.
  - apply (failed_call_changes_nothing concat_hash concat_verify count_id
             [bob_fresh_at_50] already_registered). reflexivity.
  - apply (failed_call_changes_nothing concat_hash concat_verify count_id
             [bob_fresh_at_50] invalid_credentials). reflexivity.
  - apply (failed_call_changes_nothing concat_hash concat_verify count_id
             [bob_fresh_at_50] user_not_found). reflexivity.
  - apply (failed_call_changes_nothing concat_hash concat_verify count_id
             [bob_fresh_at_50] user_not_found). reflexivity.
Defined.

(** ** Invariants of the transition system *)

Lemma elem_of_alter (f : User → User) i (db : list User) v :
  v ∈ alter f i db → v ∈ db ∨ ∃ u, db !! i = Some u ∧ v = f u.
Proof.
  intros [j Hj]%list_elem_of_lookup.
  destruct (decide (i = j)) as [->|Hne].
  - rewrite list_lookup_alter_eq in Hj.
    destruct (db !! j) as [u|] eqn:Hu; [|done].
    right. exists u. split; [done|]. simpl in Hj. congruence.
  - rewrite list_lookup_alter_ne in Hj by done.
    left. by apply list_elem_of_lookup_2 with j.
Qed.

Section Invariants.

Context (pwd_hash : string → string → option string).
Context (pwd_verify : string → string → option bool).
Context (next_id : list User → Z).

(** C6 (clients never switch a user off): a client call, whichever of
    [register], [login], [ping], [get_users] and [update_status] it is and
    whether it succeeds or raises, leaves every row that was online
    online, at its position, in any table. *)
Theorem client_call_keeps_online now r db k i u :
  find_user k db = Some (i, u) →
  is_online u = true →
  ∃ u', find_user k (serve pwd_hash pwd_verify next_id now r db) = Some (i, u') ∧ is_online u' = true.
Proof.
  intros Hk Hon. destruct r as [salt user|user|name| |name busy];
    unfold serve.
  - rewrite run_register.
    destruct (find_user (uc_username user) db); simpl; [by exists u|].
    destruct (pwd_hash salt (uc_password user)); simpl; [|by exists u].
    exists u. split; [|done]. by apply list_find_app_l.
  - rewrite run_login.
    destruct (find_user (ul_username user) db) as [[j v]|]; [|by exists u].
    destruct (pwd_verify _ _) as [[|]|]; [|by exists u|by exists u]. simpl.
    rewrite list_alter_alter_eq, find_user_alter, Hk by done. simpl.
    eexists. split; [done|]. by destruct (decide (i = j)).
  - rewrite run_ping.
    destruct (find_user name db) as [[j v]|]; [|by exists u]. simpl.
    rewrite list_alter_alter_eq, find_user_alter, Hk by done. simpl.
    eexists. split; [done|]. by destruct (decide (i = j)).
  - rewrite run_get_users. by exists u.
  - rewrite run_update_status.
    destruct (find_user name db) as [[j v]|]; [|by exists u]. simpl.
    rewrite find_user_alter, Hk by done. simpl.
    eexists. split; [done|]. by destruct (decide (i = j)).
Qed.

Lemma step_preserves_no_busy_offline now e db :
  busy_only_online db e → no_busy_offline db → no_busy_offline (step pwd_hash pwd_verify next_id now e db).
Proof.
  intros Hok Hinv. destruct e as [[salt user|user|name| |name busy]|];
    unfold step, serve.
  - rewrite run_register.
    destruct (find_user (uc_username user) db); [done|].
    destruct (pwd_hash salt (uc_password user)); [|done]. simpl.
    intros v [Hv|Hv%list_elem_of_singleton]%elem_of_app Hoff; [by apply Hinv|].
    by subst v.
  - rewrite run_login.
    destruct (find_user (ul_username user) db) as [[j w]|]; [|done].
    destruct (pwd_verify _ _) as [[|]|]; [|done|done]. simpl. rewrite list_alter_alter_eq.
    intros v [Hv|(u & _ & ->)]%elem_of_alter Hoff; [by apply Hinv|done].
  - rewrite run_ping.
    destruct (find_user name db) as [[j w]|]; [|done]. simpl.
    rewrite list_alter_alter_eq.
    intros v [Hv|(u & _ & ->)]%elem_of_alter Hoff; [by apply Hinv|done].
  - by rewrite run_get_users.
  - rewrite run_update_status.
    destruct (find_user name db) as [[j w]|] eqn:Hname; [|done]. simpl.
    intros v [Hv|(u & Hu & ->)]%elem_of_alter Hoff; [by apply Hinv|].
    destruct busy; [|done]. simpl in Hok, Hoff.
    apply find_user_Some in Hname as Hw. destruct Hw as [Hw _].
    assert (u = w) as -> by congruence.
    specialize (Hok j w Hname). congruence.
  - rewrite run_prune_users. simpl.
    intros v (u & -> & Hu)%list_elem_of_fmap.
    destruct (decide (stale now u)); [done|]. by apply Hinv.
Qed.

(** C1 (P1, no busy and offline row), amended: in every table reachable
    from the empty one by [register], [login], [ping], [get_users],
    sweeper passes and those [update_status] calls that set busy to false
    or set it to true for a user whose row is online, every row with
    [is_online] false has [is_busy] false. *)
Theorem no_busy_offline_reachable db :
  reachable pwd_hash pwd_verify next_id busy_only_online db → no_busy_offline db.
Proof.
  induction 1 as [|db now e _ IH Hok].
  - intros u Hu. by apply elem_of_nil in Hu.
  - by apply step_preserves_no_busy_offline.
Qed.

Lemma step_preserves_usernames_unique now e db :
  NoDup (username <$> db) → NoDup (username <$> step pwd_hash pwd_verify next_id now e db).
Proof.
  intros Hnd. destruct e as [[salt user|user|name| |name busy]|];
    unfold step, serve.
  - rewrite run_register.
    destruct (find_user (uc_username user) db) eqn:Hfree; [done|].
    destruct (pwd_hash salt (uc_password user)); [|done]. simpl.
    rewrite fmap_app. apply NoDup_app. split_and!; [done| |apply NoDup_singleton].
    intros x Hx ->%list_elem_of_singleton.
    apply find_user_is_Some in Hx as [? Hx]. simpl in Hx. congruence.
  - rewrite run_login.
    destruct (find_user (ul_username user) db) as [[j w]|]; [|done].
    destruct (pwd_verify _ _) as [[|]|]; [|done|done]. simpl.
    by rewrite !usernames_alter.
  - rewrite run_ping.
    destruct (find_user name db) as [[j w]|]; [|done]. simpl.
    by rewrite !usernames_alter.
  - by rewrite run_get_users.
  - rewrite run_update_status.
    destruct (find_user name db) as [[j w]|]; [|done]. simpl.
    by rewrite usernames_alter.
  - rewrite run_prune_users. simpl. rewrite <- list_fmap_compose.
    erewrite list_fmap_ext; [exact Hnd|].
    intros ? u _. simpl. by destruct (decide (stale now u)).
Qed.

(** The [unique] of the [username] column holds in every reachable table,
    with no restriction on the events. *)
Lemma usernames_unique_reachable db :
  reachable pwd_hash pwd_verify next_id any_event db → NoDup (username <$> db).
Proof.
  induction 1 as [|db now e _ IH _].
  - apply NoDup_nil_2.
  - by apply step_preserves_usernames_unique.
Qed.

End Invariants.

Lemma client_call_keeps_online_witness :
  ∃ u', find_user "bob"
          (serve concat_hash concat_verify count_id 9
             (UpdateStatus "bob" true) [alice_busy_since_0; bob_fresh_at_50])
        = Some (1%nat, u')
        ∧ is_online u' = true.
Proof.
  apply (client_call_keeps_online concat_hash concat_verify count_id 9
           (UpdateStatus "bob" true) [alice_busy_since_0; bob_fresh_at_50]
           "bob" 1%nat bob_fresh_at_50).
  - reflexivity.
  - reflexivity.
Defined.

(** C1 as stated fails: [update_status] accepts a user that never logged
    in, and the table then holds a row that is offline and busy. *)
Lemma busy_offline_reachable_counterexample :
  let db := step concat_hash concat_verify count_id 1 eve_busy
              (step concat_hash concat_verify count_id 0 register_eve []) in
  reachable concat_hash concat_verify count_id any_event db
  ∧ db = [mkUser 1 "eve" "spw" false 0 true]
  ∧ ¬ no_busy_offline db.
Proof.
  split_and!.
  - apply reachable_step; [|exact I].
    apply reachable_step; [|exact I]. apply reachable_empty.
  - reflexivity.
  - intros Hinv.
    specialize (Hinv (mkUser 1 "eve" "spw" false 0 true)).
    assert (true = false); [|discriminate].
    apply Hinv; [|reflexivity]. apply list_elem_of_here.
Qed.

Lemma no_busy_offline_reachable_witness :
  no_busy_offline
    (step concat_hash concat_verify count_id 3 register_dave
       (step concat_hash concat_verify count_id 2 eve_busy
          (step concat_hash concat_verify count_id 1 login_eve
             (step concat_hash concat_verify count_id 0 register_eve [])))).
Proof.
  apply (no_busy_offline_reachable concat_hash concat_verify count_id).
  apply reachable_step; [|exact I].
  apply reachable_step.
  - apply reachable_step; [|exact I].
    apply reachable_step; [|exact I]. apply reachable_empty.
  - intros i u. vm_compute. intros [= <- <-]. reflexivity.
Defined.

(** ** The flow of verify_backend.py *)

(** Scenario A: a registered user who logs in is listed, drops out of the
    listing while busy and is back once free. *)
Example register_login_busy_free :
  let step := step concat_hash concat_verify count_id in
  let logged_in := step 1 login_eve (step 0 register_eve []) in
  let busy := step 2 eve_busy logged_in in
  let free := step 3 (Call (UpdateStatus "eve" false)) busy in
  listAvailable 1 logged_in = ["eve"]
  ∧ listAvailable 2 busy = []
  ∧ listAvailable 3 free = ["eve"].
Proof. by vm_compute. Qed.

(** Scenario B: a user who logged in at 0 and went silent is no longer
    listed at 65 s, and the sweeper pass at 70 s leaves it offline and not
    busy. *)
Example silent_user_swept :
  let step := step concat_hash concat_verify count_id in
  let logged_in := step 0 login_eve (step 0 register_eve []) in
  listAvailable (timedelta 65) logged_in = []
  ∧ step (timedelta 70) Sweep logged_in
    = [mkUser 1 "eve" "spw" false 0 false].
Proof. by vm_compute. Qed.

(** Scenario C: a heartbeat for a name that was never registered. *)
Example ping_before_register :
  run (ping 0 "carol") [] = (inl user_not_found, []).
Proof. reflexivity. Qed.

(** ** More on the sweeper *)

Lemma prune_users_table now db :
  (run (prune_users now) db).2 = swept now <$> db.
Proof. by rewrite run_prune_users. Qed.

Lemma swept_identity now u : identity_of (swept now u) = identity_of u.
Proof. unfold swept. by destruct (decide (stale now u)). Qed.

Lemma swept_later now1 now2 u :
  now1 ≤ now2 → swept now2 (swept now1 u) = swept now2 u.
Proof.
  intros Hle. unfold swept at 2 3.
  destruct (decide (stale now1 u)) as [H1|H1].
  - rewrite (decide_True (P := stale now2 u)).
    + unfold swept. rewrite decide_False; [done|]. by intros [? _].
    + destruct H1 as [? ?]. split; [done|lia].
  - done.
Qed.

(** X1: A pass of the sweeper followed by a pass at the same or a later clock
    amounts to the later pass alone; in particular a pass repeated at the
    same clock changes nothing more. *)
Theorem prune_users_absorbs_earlier now1 now2 db :
  now1 ≤ now2 →
  run (prune_users now2) (run (prune_users now1) db).2
  = run (prune_users now2) db
  ∧ run (prune_users now2) (run (prune_users now2) db).2
    = run (prune_users now2) db.
Proof.
  intros Hle. rewrite !run_prune_users. simpl.
  rewrite <- !list_fmap_compose. split; f_equal.
  - apply list_fmap_ext. intros _ u _. by apply swept_later.
  - apply list_fmap_ext. intros _ u _. by apply swept_later.
Qed.

Lemma prune_users_absorbs_earlier_witness :
  run (prune_users (timedelta 70))
    (run (prune_users (timedelta 61)) [alice_busy_since_0; bob_fresh_at_50]).2
  = run (prune_users (timedelta 70)) [alice_busy_since_0; bob_fresh_at_50]
  ∧ run (prune_users (timedelta 70))
      (run (prune_users (timedelta 70)) [alice_busy_since_0; bob_fresh_at_50]).2
    = run (prune_users (timedelta 70)) [alice_busy_since_0; bob_fresh_at_50].
Proof.
  apply (prune_users_absorbs_earlier (timedelta 61) (timedelta 70)
           [alice_busy_since_0; bob_fresh_at_50]).
  vm_compute. discriminate.
Defined.

(** X2: A pass of the sweeper leaves the table as it is exactly when no row is
    online with a last ping more than [ttl] old; in particular on the empty
    table. *)
Theorem prune_users_unchanged_iff now db :
  (run (prune_users now) db).2 = db
  ↔ ∀ u, u ∈ db → ¬ (is_online u = true ∧ now - last_ping u > ttl).
Proof.
  rewrite prune_users_table. split.
  - intros Heq u [i Hi]%list_elem_of_lookup Hst%stale_iff.
    assert (swept now u = u) as Hu.
    { assert ((swept now <$> db) !! i = Some (swept now u)) as Hs
        by (by rewrite list_lookup_fmap, Hi).
      rewrite Heq, Hi in Hs. congruence. }
    unfold swept in Hu. rewrite decide_True in Hu by done.
    destruct Hst as [Hon _]. rewrite <- Hu in Hon. discriminate.
  - intros Hnone. rewrite <- (list_fmap_id db) at 2.
    apply list_fmap_ext. intros _ u Hu%list_elem_of_lookup_2.
    unfold swept. rewrite decide_False; [done|].
    rewrite stale_iff. by apply Hnone.
Qed.

Lemma available_swept now1 now u :
  now1 ≤ now → available now (swept now1 u) ↔ available now u.
Proof.
  intros Hle. unfold swept.
  destruct (decide (stale now1 u)) as [[Hon Hold]|]; [|done].
  split.
  - by intros [? _].
  - intros (_ & Hfresh & _). lia.
Qed.

Lemma available_not_swept now1 now u :
  now1 ≤ now → available now u → swept now1 u = u.
Proof.
  intros Hle (_ & Hfresh & _). unfold swept.
  rewrite decide_False; [done|]. intros [_ Hold]. lia.
Qed.

(** X3: What [get_users] answers at a clock is the same before and after a
    pass of the sweeper at that clock or an earlier one: the listing does
    not wait for the sweeper to drop a user whose ping is too old. *)
Theorem listing_ignores_sweeper now1 now db :
  now1 ≤ now →
  listed now (run (prune_users now1) db).2 = listed now db
  ∧ listAvailable now (run (prune_users now1) db).2 = listAvailable now db.
Proof.
  intros Hle.
  assert (listed now (run (prune_users now1) db).2 = listed now db) as Heq.
  { rewrite prune_users_table. unfold listed. rewrite !run_get_users.
    induction db as [|u db IH]; [done|].
    rewrite fmap_cons, !filter_cons.
    destruct (decide (available now (swept now1 u))) as [Hs|Hs],
             (decide (available now u)) as [Hu|Hu].
    - rewrite (available_not_swept now1 now u) by done. by rewrite IH.
    - by apply available_swept in Hs.
    - by apply (available_swept now1) in Hu.
    - done. }
  split; [done|]. by rewrite !listAvailable_usernames, Heq.
Qed.

Lemma listing_ignores_sweeper_witness :
  listed (timedelta 61)
    (run (prune_users (timedelta 61)) [alice_busy_since_0; bob_fresh_at_50]).2
  = listed (timedelta 61) [alice_busy_since_0; bob_fresh_at_50]
  ∧ listAvailable (timedelta 61)
      (run (prune_users (timedelta 61)) [alice_busy_since_0; bob_fresh_at_50]).2
    = listAvailable (timedelta 61) [alice_busy_since_0; bob_fresh_at_50].
Proof.
  apply (listing_ignores_sweeper (timedelta 61) (timedelta 61)
           [alice_busy_since_0; bob_fresh_at_50]).
  vm_compute. discriminate.
Defined.

(** X4: A row that is online with a last ping exactly [ttl] old is in neither
    window: [get_users] does not return it and the sweeper leaves it as it
    is, online. *)
Theorem row_at_ttl_neither_listed_nor_evicted now db i u :
  db !! i = Some u →
  is_online u = true →
  now - last_ping u = ttl →
  (u ∉ listed now db) ∧ (run (prune_users now) db).2 !! i = Some u.
Proof.
  intros Hi Hon Hage. split.
  - intros [_ (_ & _ & Hlt)%available_iff]%elem_of_listed. lia.
  - rewrite prune_users_table, list_lookup_fmap, Hi. simpl.
    unfold swept. rewrite decide_False; [done|]. rewrite stale_iff. lia.
Qed.

Lemma row_at_ttl_neither_listed_nor_evicted_witness :
  (bob_fresh_at_50 ∉ listed (timedelta 110) [alice_busy_since_0; bob_fresh_at_50])
  ∧ (run (prune_users (timedelta 110)) [alice_busy_since_0; bob_fresh_at_50]).2
      !! 1%nat = Some bob_fresh_at_50.
Proof.
  apply (row_at_ttl_neither_listed_nor_evicted (timedelta 110)
           [alice_busy_since_0; bob_fresh_at_50] 1%nat bob_fresh_at_50).
  - reflexivity.
  - reflexivity.
  - reflexivity.
Defined.

(** ** Heartbeats against the sweeper *)

Lemma find_user_heartbeat t k db i u :
  find_user k db = Some (i, u) →
  find_user k (run (ping t k) db).2
  = Some (i, set_is_online true (set_last_ping t u)).
Proof.
  intros Hk. rewrite run_ping, Hk. simpl.
  rewrite list_alter_alter_eq, find_user_alter, Hk by done.
  simpl. by rewrite decide_True.
Qed.

(** X5: A user whose last [ping] is at most [ttl] old is not touched by a pass
    of the sweeper: the row stays online with the ping's timestamp and its
    busy flag. *)
Theorem ping_protects_from_sweeper t now k db i u :
  find_user k db = Some (i, u) →
  now - t ≤ ttl →
  find_user k (run (prune_users now) (run (ping t k) db).2).2
  = Some (i, set_is_online true (set_last_ping t u)).
Proof.
  intros Hk Hage. rewrite prune_users_table.
  rewrite find_user_fmap
    by (intros v; pose proof (swept_identity now v) as [= _ ? _]; done).
  rewrite (find_user_heartbeat t k db i u) by done. simpl.
  unfold swept. rewrite decide_False; [done|].
  rewrite stale_iff. simpl. lia.
Qed.

Lemma ping_protects_from_sweeper_witness :
  find_user "alice"
    (run (prune_users (timedelta 61))
       (run (ping (timedelta 1) "alice") [alice_busy_since_0; bob_fresh_at_50]).2).2
  = Some (0%nat, set_is_online true (set_last_ping (timedelta 1) alice_busy_since_0)).
Proof.
  apply (ping_protects_from_sweeper (timedelta 1) (timedelta 61) "alice"
           [alice_busy_since_0; bob_fresh_at_50] 0%nat alice_busy_since_0).
  - reflexivity.
  - vm_compute. discriminate.
Defined.

(** X6: A user who pinged at [t] and then went silent: from [t + ttl] on
    [get_users] no longer names it, sweeper or not, and a pass of the
    sweeper after [t + ttl] leaves its row offline and not busy, with the
    timestamp of that last ping. *)
Theorem silent_user_drops_out t now k db i u :
  NoDup (username <$> db) →
  find_user k db = Some (i, u) →
  ttl ≤ now - t →
  let db' := (run (ping t k) db).2 in
  (k ∉ listAvailable now db')
  ∧ (ttl < now - t →
     find_user k (run (prune_users now) db').2
     = Some (i, mkUser (user_id u) (username u) (hashed_password u) false t false)).
Proof.
  intros Hnd Hk Hage db'. subst db'.
  pose proof (find_user_heartbeat t k db i u Hk) as Hk'.
  split.
  - rewrite listAvailable_usernames.
    intros (v & Hv & [Hin (_ & _ & Hlt)%available_iff]%elem_of_listed)%list_elem_of_fmap.
    apply find_user_Some in Hk' as [Hi' Hname'].
    assert (set_is_online true (set_last_ping t u) = v) as <-.
    { apply (unique_username (run (ping t k) db).2); [| |done|].
      - rewrite run_ping, Hk. simpl. by rewrite !usernames_alter.
      - by apply list_elem_of_lookup_2 with i.
      - simpl in *. congruence. }
    simpl in Hlt. lia.
  - intros Hold. rewrite prune_users_table.
    rewrite find_user_fmap
      by (intros v; pose proof (swept_identity now v) as [= _ ? _]; done).
    rewrite Hk'. simpl. unfold swept. rewrite decide_True; [done|].
    rewrite stale_iff. simpl. split; [done|lia].
Qed.

Lemma silent_user_drops_out_witness :
  let db' := (run (ping 0 "bob") [alice_busy_since_0; bob_fresh_at_50]).2 in
  ("bob" ∉ listAvailable (timedelta 65) db')
  ∧ (ttl < timedelta 65 - 0 →
     find_user "bob" (run (prune_users (timedelta 65)) db').2
     = Some (1%nat, mkUser 2 "bob" "h2" false 0 false)).
Proof.
  apply (silent_user_drops_out 0 (timedelta 65) "bob"
           [alice_busy_since_0; bob_fresh_at_50] 1%nat bob_fresh_at_50).
  - apply (bool_decide_unpack _). vm_compute. exact I.
  - reflexivity.
  - vm_compute. discriminate.
Defined.

(** ** More on login and registration *)

Section Sessions.

Context (pwd_hash : string → string → option string).
Context (pwd_verify : string → string → option bool).
Context (next_id : list User → Z).

(** X7: [login] answers 200 exactly when the name has a row whose stored hash
    the password context accepts for the given password; it then returns
    the name with "Login successful" and leaves the row online with
    [last_ping = now], its busy flag, and every other row, as they were. *)
Theorem login_success_frame now user db :
  let out := run (login pwd_verify now user) db in
  (status_code_of out.1 = 200
   ↔ ∃ i u, find_user (ul_username user) db = Some (i, u)
            ∧ pwd_verify (ul_password user) (hashed_password u) = Some true)
  ∧ (∀ i u, find_user (ul_username user) db = Some (i, u) →
       pwd_verify (ul_password user) (hashed_password u) = Some true →
       out.1 = inr [("username", ul_username user); ("message", "Login successful")]
       ∧ find_user (ul_username user) out.2
         = Some (i, mkUser (user_id u) (username u) (hashed_password u)
                      true now (is_busy u))
       ∧ length out.2 = length db
       ∧ (∀ j, j ≠ i → out.2 !! j = db !! j)).
Proof.
  intros out. subst out. rewrite run_login.
  destruct (find_user (ul_username user) db) as [[i u]|] eqn:Hk.
  - destruct (pwd_verify _ _) as [[|]|] eqn:Hv; simpl.
    + split; [split; [by eauto|done]|]. intros ? ? [= <- <-] _.
      apply find_user_Some in Hk as Hname. destruct Hname as [_ Hname].
      rewrite list_alter_alter_eq. split_and!.
      * by rewrite Hname.
      * rewrite find_user_alter, Hk by done. simpl. by rewrite decide_True.
      * apply length_alter.
      * intros j Hj. by apply list_lookup_alter_ne.
    + split; [|intros ? ? [= <- <-]; congruence].
      split; [done|]. intros (? & ? & [= <- <-] & ?). congruence.
    + split; [|intros ? ? [= <- <-]; congruence].
      split; [done|]. intros (? & ? & [= <- <-] & ?). congruence.
  - simpl. split; [|intros; discriminate].
    split; [done|]. by intros (? & ? & ? & _).
Qed.

(** X8: A [login] that succeeds writes what a [ping] for the same name at the
    same clock writes: the two leave the same table. *)
Theorem login_writes_as_ping now user db i u :
  find_user (ul_username user) db = Some (i, u) →
  pwd_verify (ul_password user) (hashed_password u) = Some true →
  (run (login pwd_verify now user) db).2
  = (run (ping now (ul_username user)) db).2.
Proof.
  intros Hk Hv. rewrite run_login, run_ping, Hk, Hv. simpl.
  rewrite !list_alter_alter_eq. by apply list_alter_ext.
Qed.

(** X9: The first three steps of verify_backend.py in general: when the
    password context hashes the password and accepts the hash it made, a
    name registered from a table without it can log in with its password,
    and [get_users] names it at every clock less than [ttl] after the
    login. *)
Theorem register_then_login_listed salt t1 t2 t3 name password hashed db :
  find_user name db = None →
  pwd_hash salt password = Some hashed →
  pwd_verify password hashed = Some true →
  t3 < t2 + ttl →
  let registered :=
    (run (register pwd_hash next_id salt t1 (mkUserCreate name password)) db).2 in
  let logged_in := run (login pwd_verify t2 (mkUserLogin name password)) registered in
  logged_in.1 = inr [("username", name); ("message", "Login successful")]
  ∧ logged_in.2 = db ++ [mkUser (next_id db) name hashed true t2 false]
  ∧ name ∈ listAvailable t3 logged_in.2.
Proof.
  intros Hfree Hhash Hv Ht registered logged_in. subst registered logged_in.
  rewrite run_register. simpl. rewrite Hfree, Hhash. simpl.
  rewrite run_login. simpl.
  rewrite list_find_app_r by done. simpl. rewrite decide_True by done.
  simpl. rewrite Hv. simpl.
  rewrite list_alter_alter_eq.
  replace (alter (set_last_ping t2 ∘ set_is_online true) (length db)
             (db ++ [new_User (next_id db) t1 name hashed]))
    with (db ++ [mkUser (next_id db) name hashed true t2 false])
    by (by rewrite <- (Nat.add_0_r (length db)), alter_app_r).
  split_and!; [done|done|].
  rewrite listAvailable_usernames. apply list_elem_of_fmap.
  exists (mkUser (next_id db) name hashed true t2 false).
  split; [done|]. apply elem_of_listed. split.
  - apply elem_of_app. right. apply list_elem_of_here.
  - apply available_iff. simpl. split_and!; [done|done|lia].
Qed.

(** X10: A name just registered is not named by [get_users], at any clock,
    until it logs in or pings. *)
Theorem registered_user_not_listed salt t now user db :
  find_user (uc_username user) db = None →
  uc_username user
  ∉ listAvailable now (run (register pwd_hash next_id salt t user) db).2.
Proof.
  intros Hfree. rewrite run_register, Hfree.
  rewrite listAvailable_usernames.
  intros (v & Hv & [Hin (Hon & _)]%elem_of_listed)%list_elem_of_fmap.
  assert (v ∈ db) as Hold.
  { destruct (pwd_hash salt (uc_password user)); simpl in Hin; [|done].
    apply elem_of_app in Hin as [Hin|Hnew%list_elem_of_singleton];
      [done|by subst v]. }
  assert (is_Some (find_user (uc_username user) db)) as [? ?]; [|congruence].
  apply find_user_is_Some, list_elem_of_fmap. by exists v.
Qed.

(** X11: A user who was busy when the sweeper dropped it is named by
    [get_users] again as soon as it logs in: the sweeper cleared the busy
    flag, and [login] does not set it. *)
Theorem evicted_busy_user_back_after_login t_sweep t_login now user db i u :
  find_user (ul_username user) db = Some (i, u) →
  is_online u = true → is_busy u = true →
  t_sweep - last_ping u > ttl →
  pwd_verify (ul_password user) (hashed_password u) = Some true →
  now < t_login + ttl →
  ul_username user
  ∈ listAvailable now
      (run (login pwd_verify t_login user) (run (prune_users t_sweep) db).2).2.
Proof.
  intros Hk Hon Hbusy Hold Hv Hnow.
  assert (find_user (ul_username user) (run (prune_users t_sweep) db).2
          = Some (i, evict u)) as Hk'.
  { rewrite prune_users_table.
    rewrite find_user_fmap
      by (intros v; pose proof (swept_identity t_sweep v) as [= _ ? _]; done).
    rewrite Hk. simpl. unfold swept. rewrite decide_True; [done|].
    by apply stale_iff. }
  rewrite run_login, Hk'. simpl. rewrite Hv. simpl.
  rewrite list_alter_alter_eq.
  apply find_user_Some in Hk' as [Hi' Hname'].
  rewrite listAvailable_usernames. apply list_elem_of_fmap.
  exists (set_last_ping t_login (set_is_online true (evict u))).
  split; [done|]. apply elem_of_listed. split.
  - apply list_elem_of_lookup_2 with i.
    by apply (lookup_heartbeat (set_last_ping t_login ∘ set_is_online true)).
  - apply available_iff. simpl. split_and!; [done|done|lia].
Qed.

End Sessions.

Lemma login_success_frame_witness :
  let user := mkUserLogin "dave" "pw" in
  let db := [bob_fresh_at_50; mkUser 3 "dave" "spw" false 3 true] in
  let out := run (login concat_verify 9 user) db in
  out.1 = inr [("username", "dave"); ("message", "Login successful")]
  ∧ find_user "dave" out.2 = Some (1%nat, mkUser 3 "dave" "spw" true 9 true)
  ∧ length out.2 = length db
  ∧ (∀ j, j ≠ 1%nat → out.2 !! j = db !! j).
Proof.
  apply (proj2 (login_success_frame concat_verify 9 (mkUserLogin "dave" "pw")
                  [bob_fresh_at_50; mkUser 3 "dave" "spw" false 3 true])
           1%nat (mkUser 3 "dave" "spw" false 3 true)).
  - reflexivity.
  - reflexivity.
Defined.

Lemma login_writes_as_ping_witness :
  (run (login concat_verify 9 (mkUserLogin "dave" "pw"))
     [bob_fresh_at_50; mkUser 3 "dave" "spw" false 3 true]).2
  = (run (ping 9 "dave") [bob_fresh_at_50; mkUser 3 "dave" "spw" false 3 true]).2.
Proof.
  apply (login_writes_as_ping concat_verify 9 (mkUserLogin "dave" "pw")
           [bob_fresh_at_50; mkUser 3 "dave" "spw" false 3 true]
           1%nat (mkUser 3 "dave" "spw" false 3 true)).
  - reflexivity.
  - reflexivity.
Defined.

Lemma register_then_login_listed_witness :
  let registered :=
    (run (register concat_hash count_id "s" 1 (mkUserCreate "dave" "pw"))
       [bob_fresh_at_50]).2 in
  let logged_in :=
    run (login concat_verify 2 (mkUserLogin "dave" "pw")) registered in
  logged_in.1 = inr [("username", "dave"); ("message", "Login successful")]
  ∧ logged_in.2
    = [bob_fresh_at_50]
      ++ [mkUser (count_id [bob_fresh_at_50]) "dave" "spw" true 2 false]
  ∧ "dave" ∈ listAvailable 3 logged_in.2.
Proof.
  apply (register_then_login_listed concat_hash concat_verify count_id
           "s" 1 2 3 "dave" "pw" "spw" [bob_fresh_at_50]).
  - reflexivity.
  - reflexivity.
  - reflexivity.
  - reflexivity.
Defined.

Lemma registered_user_not_listed_witness :
  "dave"
  ∉ listAvailable 5
      (run (register concat_hash count_id "s" 1 (mkUserCreate "dave" "pw"))
         [bob_fresh_at_50]).2.
Proof.
  apply (registered_user_not_listed concat_hash count_id "s" 1 5
           (mkUserCreate "dave" "pw") [bob_fresh_at_50]).
  reflexivity.
Defined.

Lemma evicted_busy_user_back_after_login_witness :
  "alice"
  ∈ listAvailable (timedelta 80)
      (run (login concat_verify (timedelta 75) (mkUserLogin "alice" "pw"))
         (run (prune_users (timedelta 70))
            [mkUser 1 "alice" "spw" true 0 true; bob_fresh_at_50]).2).2.
Proof.
  apply (evicted_busy_user_back_after_login concat_verify
           (timedelta 70) (timedelta 75) (timedelta 80)
           (mkUserLogin "alice" "pw")
           [mkUser 1 "alice" "spw" true 0 true; bob_fresh_at_50]
           0%nat (mkUser 1 "alice" "spw" true 0 true)).
  - reflexivity.
  - reflexivity.
  - reflexivity.
  - reflexivity.
  - reflexivity.
  - reflexivity.
Defined.

(** ** More on the busy flag and the listing *)

(** X12: Of two [update_status] calls for a name in a row the second decides:
    the table and the answer are those of the second call alone.  A call
    with the value the row already has changes nothing, so switching busy
    on and off again gives back the table of a user who was not busy. *)
Theorem update_status_last_wins name b1 b2 db :
  run (update_status name b2) (run (update_status name b1) db).2
  = run (update_status name b2) db
  ∧ (∀ i u, find_user name db = Some (i, u) →
       (run (update_status name (is_busy u)) db).2 = db
       ∧ (run (update_status name (is_busy u))
            (run (update_status name b1) db).2).2 = db).
Proof.
  rewrite (run_update_status name b1 db).
  destruct (find_user name db) as [[i u]|] eqn:Hk; simpl.
  - assert (Hk' : find_user name (alter (set_is_busy b1) i db)
                  = Some (i, set_is_busy b1 u)).
    { rewrite find_user_alter, Hk by done. simpl. by rewrite decide_True. }
    assert (Hid : alter (set_is_busy (is_busy u)) i db = db).
    { apply list_eq. intros j. destruct (decide (i = j)) as [<-|Hne].
      - apply find_user_Some in Hk as [Hi _].
        rewrite list_lookup_alter_eq, Hi. simpl. by destruct u.
      - by apply list_lookup_alter_ne. }
    split.
    + rewrite !run_update_status, Hk', Hk. f_equal.
      rewrite list_alter_alter_eq. by apply list_alter_ext.
    + intros ? ? [= <- <-]. rewrite !run_update_status, Hk', Hk. simpl.
      split; [done|].
      rewrite list_alter_alter_eq.
      rewrite <- Hid at 2. by apply list_alter_ext.
  - split; [by rewrite run_update_status, Hk|]. intros; discriminate.
Qed.

Lemma update_status_last_wins_witness :
  (run (update_status "bob" (is_busy bob_fresh_at_50))
     [alice_busy_since_0; bob_fresh_at_50]).2
  = [alice_busy_since_0; bob_fresh_at_50]
  ∧ (run (update_status "bob" (is_busy bob_fresh_at_50))
       (run (update_status "bob" true) [alice_busy_since_0; bob_fresh_at_50]).2).2
    = [alice_busy_since_0; bob_fresh_at_50].
Proof.
  apply (proj2 (update_status_last_wins "bob" true false
                  [alice_busy_since_0; bob_fresh_at_50])
           1%nat bob_fresh_at_50).
  reflexivity.
Defined.

(** X13: [get_users] never raises and never writes: the table is as before.
    Every entry of its answer shows [is_online] true and [is_busy] false,
    the names come in table order, and they are pairwise distinct when
    the usernames of the table are. *)
Theorem get_users_reads_only now db :
  (run (get_users now) db).1 = inr (listed now db)
  ∧ (run (get_users now) db).2 = db
  ∧ (∀ r, r ∈ get_users_response now db →
       ur_is_online r = true ∧ ur_is_busy r = false)
  ∧ listAvailable now db `sublist_of` (username <$> db)
  ∧ (NoDup (username <$> db) → NoDup (listAvailable now db)).
Proof.
  assert (listAvailable now db `sublist_of` (username <$> db)) as Hsub.
  { rewrite listAvailable_usernames. unfold listed. rewrite run_get_users.
    apply fmap_sublist, sublist_filter. }
  unfold listed, get_users_response. rewrite run_get_users. simpl.
  split_and!; [done|done| |done|].
  - unfold listed. rewrite run_get_users.
    intros r (u & -> & [(Hon & _ & Hfree) _]%list_elem_of_filter)%list_elem_of_fmap.
    done.
  - intros Hnd. by eapply sublist_NoDup.
Qed.

(** ** What each event may write *)


Section Write_sets.

Context (pwd_hash : string → string → option string).
Context (pwd_verify : string → string → option bool).
Context (next_id : list User → Z).


End Write_sets.


Lemma usernames_unique_reachable_witness :
  NoDup (username <$>
    step concat_hash concat_verify count_id 3 register_dave
      (step concat_hash concat_verify count_id 2 eve_busy
         (step concat_hash concat_verify count_id 1 login_eve
            (step concat_hash concat_verify count_id 0 register_eve [])))).
Proof.
  apply (usernames_unique_reachable concat_hash concat_verify count_id).
  apply reachable_step; [|exact I].
  apply reachable_step; [|exact I].
  apply reachable_step; [|exact I].
  apply reachable_step; [|exact I]. apply reachable_empty.
Defined.

(** ** The script of verify_backend.py *)

Lemma listed_app now db1 db2 :
  listed now (db1 ++ db2) = listed now db1 ++ listed now db2.
Proof. unfold listed. rewrite !run_get_users. apply filter_app. Qed.

Lemma listAvailable_nil now db : listAvailable now db = [] ↔ listed now db = [].
Proof.
  rewrite listAvailable_usernames. split; [apply fmap_nil_inv|by intros ->].
Qed.

Lemma update_status_last_row name b (db : list User) u :
  find_user name db = None → username u = name →
  (run (update_status name b) (db ++ [u])).2 = db ++ [set_is_busy b u].
Proof.
  intros Hfree Hname. rewrite run_update_status.
  rewrite list_find_app_r by done. simpl. rewrite decide_True by done. simpl.
  by rewrite <- (Nat.add_0_r (length db)), alter_app_r.
Qed.

Section Script.

Context (pwd_hash : string → string → option string).
Context (pwd_verify : string → string → option bool).
Context (next_id : list User → Z).

(** Up to its third [get_users] the script goes the same way on every
    server that does not know the drawn name yet: registration and login
    succeed, the name is listed, and the row is switched to busy. *)
Lemma test_flow_first_steps suffix salt clock db name hashed :
  name = "User" +:+ pretty suffix →
  let row b :=
    mkUser (next_id db) name hashed true (clock 2%nat) b in
  find_user name db = None →
  pwd_hash salt "password123" = Some hashed →
  pwd_verify "password123" hashed = Some true →
  clock 3%nat < clock 2%nat + ttl →
  test_flow pwd_hash pwd_verify next_id suffix salt clock db
  = if negb (bool_decide
               (length (get_users_response (clock 5%nat) (db ++ [row true]))
                = 0%nat))
    then (inl 37%nat, db ++ [row true])
    else if negb (bool_decide
               (length (get_users_response (clock 7%nat) (db ++ [row false]))
                = 1%nat))
    then (inl 47%nat, db ++ [row false])
    else (inr (), db ++ [row false]).
Proof.
  intros Hname row Hfree Hhash Hv Ht. unfold test_flow. rewrite <- Hname.
  clear Hname. subst row.
  rewrite run_register. simpl. rewrite Hfree, Hhash. simpl.
  rewrite run_login. simpl.
  rewrite list_find_app_r by done. simpl. rewrite decide_True by done.
  simpl. rewrite Hv. simpl. rewrite list_alter_alter_eq.
  replace (alter (set_last_ping (clock 2%nat) ∘ set_is_online true) (length db)
             (db ++ [new_User (next_id db) (clock 1%nat) name
                       hashed]))
    with (db ++ [mkUser (next_id db) name hashed
                   true (clock 2%nat) false])
    by (by rewrite <- (Nat.add_0_r (length db)), alter_app_r).
  rewrite (bool_decide_eq_true_2 (name ∈ _)).
  - rewrite (update_status_last_row name true) by done.
    by rewrite (update_status_last_row name false) by done.
  - change (name ∈ listAvailable (clock 3%nat)
              (db ++ [mkUser (next_id db) name hashed
                        true (clock 2%nat) false])).
    rewrite listAvailable_usernames, listed_app, fmap_app.
    apply elem_of_app. right. unfold listed. rewrite run_get_users.
    rewrite filter_cons_True; [by left|].
    apply available_iff. simpl. split_and!; [done|done|lia].
Qed.

(** X15: On a server where the drawn name is free, the password context
    hashes "password123" and accepts that hash, the requests come less than [ttl] after the
    login, and [get_users] would list nobody at the clocks of steps 5 and
    7, the script passes every [assert]; the server keeps one more row,
    online and not busy. *)
Theorem test_flow_passes suffix salt clock db hashed :
  let name := "User" +:+ pretty suffix in
  find_user name db = None →
  pwd_hash salt "password123" = Some hashed →
  pwd_verify "password123" hashed = Some true →
  clock 3%nat < clock 2%nat + ttl →
  clock 7%nat < clock 2%nat + ttl →
  listAvailable (clock 5%nat) db = [] →
  listAvailable (clock 7%nat) db = [] →
  test_flow pwd_hash pwd_verify next_id suffix salt clock db
  = (inr (),
     db ++ [mkUser (next_id db) name hashed
              true (clock 2%nat) false]).
Proof.
  intros name Hfree Hhash Hv H3 H7 Hq5%listAvailable_nil Hq7%listAvailable_nil.
  rewrite (test_flow_first_steps suffix salt clock db name hashed eq_refl Hfree Hhash Hv H3).
  clearbody name.
  unfold get_users_response. rewrite !length_fmap, !listed_app, Hq5, Hq7.
  unfold listed. rewrite !run_get_users. simpl.
  rewrite filter_cons_False by (by intros (_ & _ & ?)).
  rewrite filter_cons_True
    by (apply available_iff; simpl; split_and!; [done|done|lia]).
  done.
Qed.

(** X16: On a server where the drawn name is free, the password context
    hashes "password123" and accepts that hash, and step 3 comes less
    than [ttl] after the login, but which lists anybody at the clock of
    step 5, the script fails at the [assert] of line 37, which expects an
    empty answer, even though the user of the script is busy and left
    out. *)
Theorem test_flow_needs_quiet_server suffix salt clock db hashed :
  let name := "User" +:+ pretty suffix in
  find_user name db = None →
  pwd_hash salt "password123" = Some hashed →
  pwd_verify "password123" hashed = Some true →
  clock 3%nat < clock 2%nat + ttl →
  listAvailable (clock 5%nat) db ≠ [] →
  (test_flow pwd_hash pwd_verify next_id suffix salt clock db).1 = inl 37%nat.
Proof.
  intros name Hfree Hhash Hv H3 Hbusy.
  rewrite (test_flow_first_steps suffix salt clock db name hashed eq_refl Hfree Hhash Hv H3).
  clearbody name.
  rewrite bool_decide_eq_false_2; [done|].
  unfold get_users_response. rewrite length_fmap, listed_app, length_app.
  intros Hlen. apply Hbusy, listAvailable_nil.
  apply length_zero_iff_nil. lia.
Qed.

End Script.

Lemma test_flow_passes_witness :
  test_flow concat_hash concat_verify count_id 1234 "s" (λ k, Z.of_nat k)
    [mkUser 1 "zoe" "h" false 0 false]
  = (inr (),
     [mkUser 1 "zoe" "h" false 0 false]
     ++ [mkUser (count_id [mkUser 1 "zoe" "h" false 0 false])
           ("User" +:+ pretty 1234%N) "spassword123" true 2 false]).
Proof.
  apply (test_flow_passes concat_hash concat_verify count_id 1234 "s"
           (λ k, Z.of_nat k) [mkUser 1 "zoe" "h" false 0 false]
           "spassword123").
  - vm_compute. reflexivity.
  - vm_compute. reflexivity.
  - vm_compute. reflexivity.
  - vm_compute. reflexivity.
  - vm_compute. reflexivity.
  - vm_compute. reflexivity.
  - vm_compute. reflexivity.
Defined.

Lemma test_flow_needs_quiet_server_witness :
  (test_flow concat_hash concat_verify count_id 1234 "s" (λ k, Z.of_nat k)
     [bob_fresh_at_50]).1 = inl 37%nat.
Proof.
  apply (test_flow_needs_quiet_server concat_hash concat_verify count_id
           1234 "s" (λ k, Z.of_nat k) [bob_fresh_at_50] "spassword123").
  - vm_compute. reflexivity.
  - vm_compute. reflexivity.
  - vm_compute. reflexivity.
  - vm_compute. reflexivity.
  - vm_compute. discriminate.
Defined.

(** ** Where stored hashes come from *)

Lemma elem_of_alter_identity (f : User → User) i (db : list User) v :
  (∀ u, identity_of (f u) = identity_of u) →
  v ∈ alter f i db → ∃ u, u ∈ db ∧ identity_of v = identity_of u.
Proof.
  intros Hf [Hv|(u & Hu & ->)]%elem_of_alter.
  - by exists v.
  - exists u. split; [by apply list_elem_of_lookup_2 with i|apply Hf].
Qed.

Section Hashes.

Context (pwd_hash : string → string → option string).
Context (pwd_verify : string → string → option bool).
Context (next_id : list User → Z).

Lemma step_keeps_identities now e db v :
  v ∈ step pwd_hash pwd_verify next_id now e db →
  (∃ u, u ∈ db ∧ identity_of v = identity_of u)
  ∨ (∃ salt user, e = Call (Register salt user)
       ∧ pwd_hash salt (uc_password user) = Some (hashed_password v)).
Proof.
  destruct e as [[salt user|user|name| |name busy]|]; unfold step, serve.
  - rewrite run_register.
    destruct (find_user (uc_username user) db); simpl;
      [intros Hv; left; by exists v|].
    destruct (pwd_hash salt (uc_password user)) eqn:Hhash; simpl;
      [|intros Hv; left; by exists v].
    intros [Hv|Hv%list_elem_of_singleton]%elem_of_app.
    + left. by exists v.
    + right. exists salt, user. by subst v.
  - rewrite run_login.
    destruct (find_user (ul_username user) db) as [[j w]|];
      [|intros Hv; left; by exists v].
    destruct (pwd_verify _ _) as [[|]|]; [|intros Hv; left; by exists v|intros Hv; left; by exists v].
    simpl. rewrite list_alter_alter_eq. intros Hv. left.
    by apply elem_of_alter_identity in Hv.
  - rewrite run_ping.
    destruct (find_user name db) as [[j w]|];
      [|intros Hv; left; by exists v].
    simpl. rewrite list_alter_alter_eq. intros Hv. left.
    by apply elem_of_alter_identity in Hv.
  - rewrite run_get_users. intros Hv. left. by exists v.
  - rewrite run_update_status.
    destruct (find_user name db) as [[j w]|];
      [|intros Hv; left; by exists v].
    simpl. intros Hv. left. by apply elem_of_alter_identity in Hv.
  - rewrite prune_users_table.
    intros (u & -> & Hu)%list_elem_of_fmap. left.
    exists u. split; [done|apply swept_identity].
Qed.

(** X17: In every table the server can reach, the [hashed_password] of every
    row is a value [pwd_context.hash] returned for some password: the
    handlers store no other string in that column. *)
Theorem stored_hashes_come_from_pwd_hash db :
  reachable pwd_hash pwd_verify next_id any_event db →
  ∀ u, u ∈ db →
    ∃ salt password, pwd_hash salt password = Some (hashed_password u).
Proof.
  induction 1 as [|db now e _ IH _]; intros v Hv.
  - by apply elem_of_nil in Hv.
  - apply step_keeps_identities in Hv
      as [(u & Hu & [= _ _ Hhash])|(salt & user & _ & Hhash)].
    + rewrite Hhash. by apply IH.
    + by exists salt, (uc_password user).
Qed.

End Hashes.

Lemma stored_hashes_come_from_pwd_hash_witness :
  ∃ salt password,
    concat_hash salt password
    = Some (hashed_password (mkUser 1 "eve" "spw" true 1 false)).
Proof.
  apply (stored_hashes_come_from_pwd_hash concat_hash concat_verify count_id
           (step concat_hash concat_verify count_id 1 login_eve
              (step concat_hash concat_verify count_id 0 register_eve []))).
  - apply reachable_step; [|exact I].
    apply reachable_step; [|exact I]. apply reachable_empty.
  - vm_compute. apply list_elem_of_here.
Defined.
